(** * Static development server of the Dynamic Event Scheduler frontend

    A shallow embedding of [server.py]: the request handler
    [CustomHTTPRequestHandler] (its [end_headers] override and its
    [do_OPTIONS] method) and the start-up routine [main].

    [server.py] is a thin layer over Python's standard library
    ([http.server], [socketserver], [os], [webbrowser]).  The library is
    not part of the repository; the parts of it that the program drives
    are modelled below, method by method, after the library's code, and
    everything the library leaves to the platform (clock, URL decoding,
    MIME table, HTML pages) enters through the record [platform]. *)

From Stdlib Require Import String Ascii List Bool Arith ZArith Lia DecimalString.
Import ListNotations.
Local Open Scope list_scope.
Local Open Scope string_scope.

(** * Configuration (server.py, lines 14-16) *)

Definition PORT : Z := 8000.
Definition HOST : string := "localhost".

(** Python's [str(n)] and the [%d] / [{n}] conversions of an integer. *)
Definition str_of_int (n : Z) : string :=
  NilZero.string_of_int (Z.to_int n).

(** * What goes over the wire *)

Module Http.

(** One entry of the handler's [_headers_buffer]. *)
Inductive line : Type :=
| StatusLine (protocol : string) (code : Z) (message : string)
| HeaderLine (keyword value : string)
| BlankLine.

(** One [wfile.write] call: either the flushed header buffer
    ([flush_headers]) or a piece of body. *)
Inductive chunk : Type :=
| HeaderBlock (lines : list line)
| Body (data : string).

Definition CRLF : string :=
  String (ascii_of_nat 13) (String (ascii_of_nat 10) EmptyString).

(** The bytes the library puts in the buffer for each entry:
    ["%s %d %s\r\n"], ["%s: %s\r\n"] and ["\r\n"]. *)
Definition render_line (l : line) : string :=
  match l with
  | StatusLine p c m => p ++ " " ++ str_of_int c ++ " " ++ m ++ CRLF
  | HeaderLine k v => k ++ ": " ++ v ++ CRLF
  | BlankLine => CRLF
  end.

Definition render_chunk (c : chunk) : string :=
  match c with
  | HeaderBlock ls => String.concat "" (map render_line ls)
  | Body d => d
  end.

(** The byte stream a client reads. *)
Definition wire_bytes (w : list chunk) : string :=
  String.concat "" (map render_chunk w).

(** ** Reading a response back *)




Definition body (w : list chunk) : string :=
  String.concat ""
    (flat_map (fun c => match c with Body d => [d] | HeaderBlock _ => [] end) w).


End Http.
Import Http.

(** * The platform the library runs on

    Values and functions that the standard library computes from the
    interpreter, the clock or the URL and MIME machinery.  They are left
    open: no result below depends on what they return. *)

Record platform : Type := mkPlatform {
  (** [version_string()]: server software and interpreter version. *)
  version_string : string;
  (** [date_time_string()]: the current time, formatted for a header. *)
  date_time_string : string;
  (** [translate_path]: document root and request target to a path. *)
  translate_path : string -> string -> string;
  (** [guess_type]: content type of a path. *)
  guess_type : string -> string;
  (** [urlsplit(target).path.endswith('/')]. *)
  target_ends_with_slash : string -> bool;
  (** The redirect target: the request target with ['/'] added to its path. *)
  target_with_slash : string -> string;
  (** The HTML page of an error reply, from code, message and explanation. *)
  error_page : Z -> string -> string -> string;
  (** The HTML listing of a directory, from path, entries and request target. *)
  listing_page : string -> list string -> string -> string;
  (** [sys.getfilesystemencoding()]. *)
  filesystem_encoding : string;
  (** [repr] of a string, for the [%r] conversion. *)
  repr : string -> string
}.

(** * The file system, as [os.stat] and [open] see it *)

Inductive entry : Type :=
| File (contents : option string) (last_modified : string)
    (** a regular file; [contents] is [None] when [open(path, 'rb')] fails *)
| Dir (listing : option (list string))
    (** a directory; [listing] is [None] when [os.listdir] fails *)
| Other.
    (** any other kind of entry: FIFO, socket, device node *)

(** Absolute path to what [os.stat] finds there, symbolic links followed. *)
Definition filesystem : Type := string -> option entry.

(** [p.endswith('/')] *)
Fixpoint ends_with_slash (p : string) : bool :=
  match p with
  | EmptyString => false
  | String c EmptyString => Ascii.eqb c "/"
  | String _ rest => ends_with_slash rest
  end.

(** [os.path.join(d, f)] for a relative [f]; the system resolves a
    relative path against the working directory in the same way. *)
Definition path_join (d f : string) : string :=
  if String.eqb d "" then f
  else if ends_with_slash d then d ++ f
  else d ++ "/" ++ f.

Module os_path.

(** [os.path.exists]: [os.stat] succeeds. *)
Definition exists_ (fs : filesystem) (p : string) : bool :=
  match fs p with Some _ => true | None => false end.

Definition isdir (fs : filesystem) (p : string) : bool :=
  match fs p with Some (Dir _) => true | _ => false end.

Definition isfile (fs : filesystem) (p : string) : bool :=
  match fs p with Some (File _ _) => true | _ => false end.

End os_path.

(** [open(path, 'rb')] followed by [os.fstat]: contents and formatted
    modification time, or [None] for [OSError]. *)
Definition open_rb (fs : filesystem) (p : string) : option (string * string) :=
  match fs p with
  | Some (File (Some c) m) => Some (c, m)
  | _ => None
  end.

(** * The request handler object

    One handler serves one request.  Requests are HTTP/1.x requests given
    by their request line, after the library has parsed it: [command] and
    [path].  For such requests the library's test
    [request_version != 'HTTP/0.9'] in [send_response_only], [send_header]
    and [end_headers] always passes, so it is not represented, and neither
    are the request's own header fields. *)

Record handler : Type := mkHandler {
  command : string;
  path : string;
  directory : string;            (** document root: [os.getcwd()] at creation *)
  headers_buffer : list line;    (** [_headers_buffer] *)
  wfile : list chunk             (** writes done so far, oldest first *)
}.

Definition buffer_append (l : line) (h : handler) : handler :=
  mkHandler (command h) (path h) (directory h)
            (headers_buffer h ++ [l]) (wfile h).

Definition wfile_write (c : chunk) (h : handler) : handler :=
  mkHandler (command h) (path h) (directory h)
            (headers_buffer h) (wfile h ++ [c]).

(** ** [http.server.BaseHTTPRequestHandler] *)

Module BaseHTTPRequestHandler.

Definition protocol_version : string := "HTTP/1.0".
Definition error_content_type : string := "text/html;charset=utf-8".

(** The rows of [responses] (short and long message per status code)
    that this server can reach. *)
Definition responses : list (Z * (string * string)) :=
  [ (200, ("OK", "Request fulfilled, document follows"));
    (301, ("Moved Permanently", "Object moved permanently -- see URI list"));
    (404, ("Not Found", "Nothing matches the given URI"));
    (501, ("Not Implemented", "Server does not support this operation")) ]%Z.

Fixpoint lookup_response (code : Z) (t : list (Z * (string * string)))
  : option (string * string) :=
  match t with
  | [] => None
  | (c, m) :: t' => if Z.eqb c code then Some m else lookup_response code t'
  end.

Definition send_response_only (code : Z) (message : option string)
           (h : handler) : handler :=
  let message :=
    match message with
    | Some m => m
    | None => match lookup_response code responses with
              | Some (short, _) => short
              | None => ""
              end
    end in
  buffer_append (StatusLine protocol_version code message) h.

Definition send_header (keyword value : string) (h : handler) : handler :=
  buffer_append (HeaderLine keyword value) h.

Definition flush_headers (h : handler) : handler :=
  mkHandler (command h) (path h) (directory h)
            [] (wfile h ++ [HeaderBlock (headers_buffer h)]).

Definition end_headers (h : handler) : handler :=
  flush_headers (buffer_append BlankLine h).

Section Methods.

Variable pf : platform.

(** The [end_headers] of the object's own class: the library calls
    [self.end_headers()], which a subclass may override. *)
Variable self_end_headers : handler -> handler.

Definition send_response (code : Z) (message : option string)
           (h : handler) : handler :=
  let h := send_response_only code message h in
  let h := send_header "Server" (version_string pf) h in
  send_header "Date" (date_time_string pf) h.

Definition send_error (code : Z) (message : option string)
           (h : handler) : handler :=
  let '(shortmsg, longmsg) :=
    match lookup_response code responses with
    | Some m => m
    | None => ("???", "???")
    end in
  let message := match message with Some m => m | None => shortmsg end in
  let explain := longmsg in
  let h := send_response code (Some message) h in
  let h := send_header "Connection" "close" h in
  let with_body :=
    (200 <=? code)%Z && negb (existsb (Z.eqb code) [204; 205; 304]%Z) in
  let body := error_page pf code message explain in
  let h :=
    if with_body then
      let h := send_header "Content-Type" error_content_type h in
      send_header "Content-Length" (str_of_int (Z.of_nat (String.length body))) h
    else h in
  let h := self_end_headers h in
  if with_body && negb (String.eqb (command h) "HEAD")
     && negb (String.eqb body "")
  then wfile_write (Body body) h
  else h.

(** [handle_one_request] once the request line is parsed:
    [getattr(self, 'do_' + command)] or a 501 reply. *)
Definition handle_one_request
           (method : string -> option (handler -> handler))
           (h : handler) : handler :=
  match method (command h) with
  | None =>
      send_error 501%Z
        (Some ("Unsupported method (" ++ repr pf (command h) ++ ")")%string) h
  | Some m => m h
  end.

End Methods.

End BaseHTTPRequestHandler.

(** ** [http.server.SimpleHTTPRequestHandler] *)

Module SimpleHTTPRequestHandler.
Import BaseHTTPRequestHandler.

Definition index_pages : list string := ["index.html"; "index.htm"].

(** [shutil.copyfileobj]: nothing is written for an empty source. *)
Definition copyfile (data : string) (h : handler) : handler :=
  if String.eqb data "" then h else wfile_write (Body data) h.

Section Methods.

Variable pf : platform.
Variable fs : filesystem.
Variable self_end_headers : handler -> handler.

(** Both return the handler and the file object to copy, if any. *)
Definition list_directory (p : string) (h : handler)
  : handler * option string :=
  match fs p with
  | Some (Dir (Some names)) =>
      let encoded := listing_page pf p names (path h) in
      let h := send_response pf 200 None h in
      let h := send_header "Content-type"
                 ("text/html; charset=" ++ filesystem_encoding pf) h in
      let h := send_header "Content-Length"
                 (str_of_int (Z.of_nat (String.length encoded))) h in
      (self_end_headers h, Some encoded)
  | _ =>
      (send_error pf self_end_headers 404
         (Some "No permission to list directory") h, None)
  end.

Definition send_file (p : string) (h : handler)
  : handler * option string :=
  let ctype := guess_type pf p in
  if ends_with_slash p then
    (send_error pf self_end_headers 404 (Some "File not found") h, None)
  else
    match open_rb fs p with
    | None =>
        (send_error pf self_end_headers 404 (Some "File not found") h, None)
    | Some (data, mtime) =>
        let h := send_response pf 200 None h in
        let h := send_header "Content-type" ctype h in
        let h := send_header "Content-Length"
                   (str_of_int (Z.of_nat (String.length data))) h in
        let h := send_header "Last-Modified" mtime h in
        (self_end_headers h, Some data)
    end.

Definition send_head (h : handler) : handler * option string :=
  let p := translate_path pf (directory h) (path h) in
  if os_path.isdir fs p then
    if negb (target_ends_with_slash pf (path h)) then
      let h := send_response pf 301 None h in
      let h := send_header "Location" (target_with_slash pf (path h)) h in
      let h := send_header "Content-Length" "0" h in
      (self_end_headers h, None)
    else
      match find (fun i => os_path.isfile fs (path_join p i)) index_pages with
      | Some i => send_file (path_join p i) h
      | None => list_directory p h
      end
  else send_file p h.

Definition do_GET (h : handler) : handler :=
  match send_head h with
  | (h, Some f) => copyfile f h
  | (h, None) => h
  end.

Definition do_HEAD (h : handler) : handler :=
  fst (send_head h).

End Methods.

End SimpleHTTPRequestHandler.

(** * [CustomHTTPRequestHandler] (server.py, lines 18-29) *)

Module CustomHTTPRequestHandler.

(** Inherited unchanged from the base classes. *)
Definition send_header := BaseHTTPRequestHandler.send_header.
Definition send_response := BaseHTTPRequestHandler.send_response.

(** Lines 19-24. *)
Definition end_headers (h : handler) : handler :=
  let h := send_header "Access-Control-Allow-Origin" "*" h in
  let h := send_header "Access-Control-Allow-Methods" "GET, POST, OPTIONS" h in
  let h := send_header "Access-Control-Allow-Headers" "Content-Type" h in
  BaseHTTPRequestHandler.end_headers h.

Section Methods.

Variable pf : platform.
Variable fs : filesystem.

(** Lines 26-29. *)
Definition do_OPTIONS (h : handler) : handler :=
  let h := send_response pf 200 None h in
  end_headers h.

(** Inherited methods, running on an object of this class: their
    calls of [self.end_headers()] reach the override above. *)
Definition send_error := BaseHTTPRequestHandler.send_error pf end_headers.
Definition do_GET := SimpleHTTPRequestHandler.do_GET pf fs end_headers.
Definition do_HEAD := SimpleHTTPRequestHandler.do_HEAD pf fs end_headers.

(** [getattr(self, 'do_' + command)]: the [do_*] methods the class has. *)
Definition method (command : string) : option (handler -> handler) :=
  if String.eqb command "OPTIONS" then Some do_OPTIONS
  else if String.eqb command "GET" then Some do_GET
  else if String.eqb command "HEAD" then Some do_HEAD
  else None.

Definition handle_one_request : handler -> handler :=
  BaseHTTPRequestHandler.handle_one_request pf end_headers method.

(** The server creates a fresh handler per request, rooted at the
    working directory, and lets it handle the request; the result is
    what was written to the connection. *)
Definition respond (cwd command path : string) : list chunk :=
  wfile (handle_one_request (mkHandler command path cwd [] [])).

End Methods.

End CustomHTTPRequestHandler.

(** The three headers of lines 21-23, in the order they are sent. *)
Definition cors_headers : list (string * string) :=
  [ ("Access-Control-Allow-Origin", "*");
    ("Access-Control-Allow-Methods", "GET, POST, OPTIONS");
    ("Access-Control-Allow-Headers", "Content-Type") ].

Definition cors_lines : list line :=
  map (fun kv => HeaderLine (fst kv) (snd kv)) cors_headers.

(** * The process: [main] (server.py, lines 31-70) *)

Module Process.

(** Python exceptions that can travel through [main].  [SystemExit] and
    [KeyboardInterrupt] derive from [BaseException] only; the others
    derive from [Exception]. *)
Inductive exc : Type :=
| SystemExit (code : Z)
| KeyboardInterrupt
| OSError (message : string)
| Error (class_name : string).

Definition is_Exception (e : exc) : bool :=
  match e with
  | SystemExit _ | KeyboardInterrupt => false
  | OSError _ | Error _ => true
  end.

Definition is_KeyboardInterrupt (e : exc) : bool :=
  match e with KeyboardInterrupt => true | _ => false end.

Inductive socket_state : Type :=
| NoSocket
| Listening (host : string) (port : Z)
| Closed.

(** What the process does to the outside world, and what reaches it. *)
Inductive event : Type :=
| Chdir (dir : string)
| Exists (resolved : string) (found : bool)
| Print (text : string)
| Bind (host : string) (port : Z) (ok : bool)
| BrowserOpen (url : string)
| ServeForever
| Request (root command path : string) (response : list chunk)
| ServerClose
| Interrupt.

(** How one [webbrowser.open] call ends. *)
Inductive browser_outcome : Type :=
| Opened (result : bool)
| Failed (e : exc).

(** Everything the run depends on and does not choose itself. *)
Record environment : Type := mkEnvironment {
  argv : list string;
  environ : list (string * string);
  pf : platform;
  fs : filesystem;
  start_dir : string;          (** working directory at invocation *)
  script_dir : string;         (** [Path(__file__).parent] *)
  bind_error : option string;  (** [OSError] of bind or listen, if any *)
  browser : browser_outcome;
  sigint : option nat;         (** the step during which Ctrl+C arrives *)
  requests : list (string * string)
    (** request lines that arrive while the loop runs, in order *)
}.

Record world : Type := mkWorld {
  cwd : string;
  sock : socket_state;
  trace : list event;          (** oldest first *)
  clock : nat;                 (** external calls started so far *)
  pending : option nat         (** the step of a Ctrl+C still to come *)
}.

Definition log (e : event) (w : world) : world :=
  mkWorld (cwd w) (sock w) (trace w ++ [e]) (clock w) (pending w).

Definition set_cwd (d : string) (w : world) : world :=
  mkWorld d (sock w) (trace w) (clock w) (pending w).

Definition set_sock (s : socket_state) (w : world) : world :=
  mkWorld (cwd w) s (trace w) (clock w) (pending w).

Definition advance (w : world) : world :=
  mkWorld (cwd w) (sock w) (trace w) (S (clock w)) (pending w).

(** The signal is delivered: [KeyboardInterrupt] is raised, once. *)
Definition deliver (w : world) : world :=
  mkWorld (cwd w) (sock w) (trace w ++ [Interrupt]) (clock w) None.

(** ** A state and exception monad *)

Inductive outcome (A : Type) : Type :=
| Return (a : A)
| Raise (e : exc)
| Blocked.   (** waiting for a connection, for ever *)
Arguments Return {A} a.
Arguments Raise {A} e.
Arguments Blocked {A}.

Definition M (A : Type) : Type := world -> outcome A * world.

Definition ret {A} (a : A) : M A := fun w => (Return a, w).

Definition bind {A B} (m : M A) (k : A -> M B) : M B :=
  fun w =>
    match m w with
    | (Return a, w') => k a w'
    | (Raise e, w') => (Raise e, w')
    | (Blocked, w') => (Blocked, w')
    end.

Definition raise {A} (e : exc) : M A := fun w => (Raise e, w).

Definition effect (f : world -> world) : M unit :=
  fun w => (Return tt, f w).

Declare Scope process_scope.
Delimit Scope process_scope with process.
Notation "x <- m ;; k" := (bind m (fun x => k))
  (at level 61, m at next level, right associativity) : process_scope.
Notation "m ;; k" := (bind m (fun _ => k))
  (at level 61, right associativity) : process_scope.
Local Open Scope process_scope.

(** [try: body  except <classes>: handler] *)
Definition try_except {A} (body : M A) (catches : exc -> bool)
           (handler : M A) : M A :=
  fun w =>
    match body w with
    | (Raise e, w') => if catches e then handler w' else (Raise e, w')
    | r => r
    end.

(** [with resource: body]: [release] runs however [body] ends, unless it
    never ends. *)
Definition with_ {A} (body : M A) (release : M unit) : M A :=
  fun w =>
    match body w with
    | (Return a, w') =>
        match release w' with
        | (Return _, w'') => (Return a, w'')
        | (Raise e, w'') => (Raise e, w'')
        | (Blocked, w'') => (Blocked, w'')
        end
    | (Raise e, w') =>
        match release w' with
        | (Return _, w'') => (Raise e, w'')
        | (Raise e', w'') => (Raise e', w'')
        | (Blocked, w'') => (Blocked, w'')
        end
    | (Blocked, w') => (Blocked, w')
    end.

Section Run.

Variable env : environment.

(** ** External calls

    Each call is one step of the clock.  A Ctrl+C that arrives during
    a step surfaces there as [KeyboardInterrupt], in place of the
    call's effect. *)
Definition tick : M unit :=
  fun w =>
    match pending w with
    | Some k =>
        if Nat.eqb k (clock w)
        then (Raise KeyboardInterrupt, deliver (advance w))
        else (Return tt, advance w)
    | None => (Return tt, advance w)
    end.

Definition os_chdir (d : string) : M unit :=
  tick ;; effect (fun w => log (Chdir d) (set_cwd d w)).

Definition os_path_exists (f : string) : M bool :=
  tick ;;
  fun w =>
    let p := path_join (cwd w) f in
    let b := os_path.exists_ (fs env) p in
    (Return b, log (Exists p b) w).

Definition print (text : string) : M unit :=
  tick ;; effect (log (Print text)).

Definition sys_exit {A} (code : Z) : M A :=
  raise (SystemExit code).

(** [socketserver.TCPServer((host, port), Handler)]: create, bind and
    listen; on failure the constructor closes the socket and lets the
    error through. *)
Definition TCPServer (host : string) (port : Z) : M unit :=
  tick ;;
  match bind_error env with
  | None =>
      effect (fun w => log (Bind host port true)
                           (set_sock (Listening host port) w))
  | Some msg =>
      effect (log (Bind host port false)) ;; raise (OSError msg)
  end.

(** [TCPServer.__exit__]: [server_close()]. *)
Definition server_close : M unit :=
  effect (fun w => log ServerClose (set_sock Closed w)).

Definition webbrowser_open (url : string) : M bool :=
  tick ;;
  effect (log (BrowserOpen url)) ;;
  match browser env with
  | Opened b => ret b
  | Failed e => raise e
  end.

(** One accepted connection, handled to completion by a new
    [CustomHTTPRequestHandler] rooted at the working directory. *)
Definition served (root : string) (r : string * string) : event :=
  Request root (fst r) (snd r)
    (CustomHTTPRequestHandler.respond (pf env) (fs env)
       root (fst r) (snd r)).

Definition handle_request (r : string * string) (w : world) : world :=
  log (served (cwd w) r) w.

(** [httpd.serve_forever()]: accept and handle one connection after
    the other.  The loop has no exit of its own: it ends when Ctrl+C
    arrives, and otherwise waits for the next connection. *)
Definition serve_forever : M unit :=
  fun w =>
    let w := log ServeForever w in
    let w := fold_left (fun w r => handle_request r w) (requests env) w in
    match pending w with
    | Some k =>
        if Nat.leb (clock w) k
        then (Raise KeyboardInterrupt, deliver w)
        else (Blocked, w)
    | None => (Blocked, w)
    end.

(** ** [main] *)

Definition required_files : list string :=
  ["index.html"; "styles.css"; "script.js"].

(** [[f for f in files if not os.path.exists(f)]] *)
Fixpoint missing (files : list string) : M (list string) :=
  match files with
  | [] => ret []
  | f :: files' =>
      b <- os_path_exists f ;;
      rest <- missing files' ;;
      ret (if b then rest else f :: rest)
  end.

Definition root_url : string :=
  "http://" ++ HOST ++ ":" ++ str_of_int PORT.

Definition banner : list string :=
  [ "🚀 Dynamic Event Scheduler Server Starting...";
    "📁 Serving files from: " ++ script_dir env;
    "🌐 Server running at: http://" ++ HOST ++ ":" ++ str_of_int PORT;
    "📱 Open your browser and go to: http://localhost:" ++ str_of_int PORT;
    String (ascii_of_nat 10) "✨ Features available:";
    "   • Interactive event scheduling";
    "   • Visual conflict graph";
    "   • Timeline view";
    "   • Real-time updates";
    "   • Export functionality";
    String (ascii_of_nat 10) "Press Ctrl+C to stop the server";
    String.concat "" (repeat "=" 50) ].

Definition farewell : list string :=
  [ String (ascii_of_nat 10) (String (ascii_of_nat 10)
      "🛑 Server stopped by user");
    "Thank you for using Dynamic Event Scheduler!" ].

Fixpoint print_all (texts : list string) : M unit :=
  match texts with
  | [] => ret tt
  | t :: ts => print t ;; print_all ts
  end.

Definition missing_report (missing_files : list string) : list string :=
  [ "❌ Missing required files: " ++ String.concat ", " missing_files;
    "Please ensure all frontend files are in the same directory as this server script." ].

Definition main : M unit :=
  (* lines 33-34 *)
  os_chdir (script_dir env) ;;
  (* lines 37-43 *)
  missing_files <- missing required_files ;;
  (match missing_files with
   | [] => ret tt
   | _ :: _ => print_all (missing_report missing_files) ;; sys_exit 1
   end) ;;
  (* lines 46-70 *)
  TCPServer HOST PORT ;;
  with_
    (print_all banner ;;
     try_except (webbrowser_open root_url ;; ret tt)
                is_Exception
                (ret tt) ;;
     try_except serve_forever
                is_KeyboardInterrupt
                (print_all farewell))
    server_close.

Definition initial : world :=
  mkWorld (start_dir env) NoSocket [] 0 (sigint env).

(** [if __name__ == "__main__": main()] *)
Definition run : outcome unit * world := main initial.

End Run.

(** The status the interpreter ends the process with: 0 when [main]
    returns, the code of [SystemExit], 1 after the traceback of an
    unhandled exception, and termination by the interrupt signal (which
    a shell reports as 130) for an unhandled [KeyboardInterrupt].  A
    process that is still serving has none. *)
Definition exit_status (o : outcome unit) : option Z :=
  match o with
  | Return _ => Some 0%Z
  | Raise (SystemExit c) => Some c
  | Raise KeyboardInterrupt => Some 130%Z
  | Raise _ => Some 1%Z
  | Blocked => None
  end.

Definition stdout (w : world) : list string :=
  flat_map (fun e => match e with Print t => [t] | _ => [] end) (trace w).

End Process.

(** * Vocabulary of the statements *)

(** ** Responses *)

Definition field (kv : string * string) : line :=
  HeaderLine (fst kv) (snd kv).

Definition is_cors_keyword (k : string) : bool :=
  existsb (String.eqb k) (map fst cors_headers).



(** A status line and header fields that the library sends on its own. *)
Definition head_of (code : Z) (fields : list (string * string))
           (b : list line) : Prop :=
  (exists message,
      b = StatusLine BaseHTTPRequestHandler.protocol_version code message
          :: map field fields)
  /\ Forall (fun kv => is_cors_keyword (fst kv) = false) fields.

(** One header block (a head, then the three CORS fields, then the blank
    line that ends the headers) followed by body only. *)
Definition cors_response (code : Z) (bodies : list string)
           (r : list chunk) : Prop :=
  exists fields head,
    head_of code fields head
    /\ r = HeaderBlock (head ++ cors_lines ++ [BlankLine]) :: map Body bodies.

(** A handler that has not started its reply. *)
Definition fresh (h : handler) : Prop :=
  wfile h = [] /\ headers_buffer h = [].

(** A handler that has buffered a head and written nothing yet. *)
Definition buffered (code : Z) (h : handler) : Prop :=
  wfile h = [] /\ exists fields, head_of code fields (headers_buffer h).



(** ** Runs *)

Section RunVocabulary.
Import Process.

Definition succeeded (e : option string) : bool :=
match e with None => true | Some _ => false end.

(** The required files that [os.path.exists] does not find in the script
  directory, in the order of [required_files]. *)
Definition absent (env : environment) : list string :=
filter (fun f => negb (os_path.exists_ (fs env)
                         (path_join (script_dir env) f)))
       required_files.

(** The three existence checks, made in the script directory. *)
Definition checks (env : environment) : list event :=
map (fun f => Exists (path_join (script_dir env) f)
                (os_path.exists_ (fs env) (path_join (script_dir env) f)))
    required_files.

(** The trace up to a successful bind. *)
Definition bound_trace (env : environment) : list event :=
(Chdir (script_dir env) :: checks env ++ [Bind HOST PORT true])%list.

(** The trace of a server that came up and has handled the requests that
  arrived. *)
Definition serving_trace (env : environment) : list event :=
(bound_trace env ++ map Print (banner env)
 ++ [BrowserOpen root_url; ServeForever]
 ++ map (served env (script_dir env)) (requests env))%list.

(** The world after the loop has started and handled what arrived. *)
Definition arrived (env : environment) (w : world) : world :=
mkWorld (cwd w) (sock w)
  (trace w ++ ServeForever :: map (served env (cwd w)) (requests env))
  (clock w) (pending w).

Definition with_start_dir (d : string) (env : environment) : environment :=
mkEnvironment (argv env) (environ env) (pf env) (fs env) d (script_dir env)
  (bind_error env) (browser env) (sigint env) (requests env).

Definition with_browser (b : browser_outcome) (env : environment)
: environment :=
mkEnvironment (argv env) (environ env) (pf env) (fs env) (start_dir env)
  (script_dir env) (bind_error env) b (sigint env) (requests env).

Definition with_arguments (av : list string) (en : list (string * string))
         (env : environment) : environment :=
mkEnvironment av en (pf env) (fs env) (start_dir env) (script_dir env)
  (bind_error env) (browser env) (sigint env) (requests env).

End RunVocabulary.

(** ** More vocabulary *)


Definition is_request (e : Process.event) : bool :=
  match e with Process.Request _ _ _ _ => true | _ => false end.

(** The replies of a run, in the order they were sent. *)
Definition request_events (tr : list Process.event) : list Process.event :=
  filter is_request tr.

(** The last thing a run did. *)
Definition last_event (tr : list Process.event) : option Process.event :=
  hd_error (rev tr).

(** * Concrete inputs

    A platform, a document root and an environment to run the model on. *)

Module Demo.
Import Process.

Definition demo_platform : platform :=
  mkPlatform "SimpleHTTP/0.6 Python/3.11.2" "Wed, 04 Nov 2026 12:00:00 GMT"
    (fun d t => d ++ t) (fun _ => "text/html") ends_with_slash
    (fun t => t ++ "/") (fun _ m _ => "<p>" ++ m ++ "</p>")
    (fun _ _ _ => "<ul></ul>") "utf-8" (fun s => "'" ++ s ++ "'").

Definition page : string := "<h1>Scheduler</h1>".

(** All three assets in [/srv/app]: a page, a directory and a FIFO. *)
Definition demo_fs : filesystem :=
  fun p =>
    if String.eqb p "/srv/app"
    then Some (Dir (Some ["index.html"; "styles.css"; "script.js"]))
    else if String.eqb p "/srv/app/index.html"
    then Some (File (Some page) "Mon, 02 Nov 2026 08:00:00 GMT")
    else if String.eqb p "/srv/app/styles.css" then Some (Dir None)
    else if String.eqb p "/srv/app/script.js" then Some Other
    else None.

(** Only the page is there. *)
Definition bare_fs : filesystem :=
  fun p =>
    if String.eqb p "/srv/app/index.html"
    then Some (File (Some page) "Mon, 02 Nov 2026 08:00:00 GMT")
    else None.

Definition demo_requests : list (string * string) :=
  [("GET", "/index.html"); ("OPTIONS", "/nope"); ("GET", "/nope");
   ("PUT", "/x")].

Definition demo_env (f : filesystem) (b : browser_outcome)
           (sig : option nat) : environment :=
  mkEnvironment ["server.py"] [("PORT", "9000")] demo_platform f
    "/home/user" "/srv/app" None b sig demo_requests.

(** Two assets are missing. *)
Definition gate_demo : environment :=
  demo_env bare_fs (Opened true) None.

(** Everything is in place, no browser can be launched, and Ctrl+C
    arrives during step [n] (or never). *)
Definition serving_demo (sig : option nat) : environment :=
  demo_env demo_fs (Failed (Error "webbrowser.Error")) sig.



(** Everything is in place and the port is taken. *)
Definition busy_demo : environment :=
  mkEnvironment ["server.py"] [] demo_platform demo_fs
    "/home/user" "/srv/app" (Some "[Errno 98] Address already in use")
    (Opened true) None demo_requests.

End Demo.

(** * Properties of the request handler *)

Section HandlerProperties.

Import CustomHTTPRequestHandler.

(** ** What [end_headers] writes *)

Lemma end_headers_writes (h : handler) :
end_headers h =
mkHandler (command h) (path h) (directory h) []
  (wfile h ++ [HeaderBlock (headers_buffer h ++ cors_lines ++ [BlankLine])]).
Proof.
destruct h as [c p d b w]. unfold end_headers, send_header.
unfold BaseHTTPRequestHandler.end_headers,
  BaseHTTPRequestHandler.flush_headers,
  BaseHTTPRequestHandler.send_header, buffer_append. cbn.
now rewrite <- !app_assoc.
Qed.

(** ** The reply is built in three steps: head, fields, flush *)

Lemma send_response_buffered pf code message h :
fresh h ->
buffered code (BaseHTTPRequestHandler.send_response pf code message h).
Proof.
intros [Hw Hb]. split; [exact Hw|].
exists [("Server", version_string pf); ("Date", date_time_string pf)].
split.
- cbn. rewrite Hb. eexists. reflexivity.
- repeat constructor.
Qed.

Lemma send_header_buffered code k v h :
is_cors_keyword k = false -> buffered code h ->
buffered code (BaseHTTPRequestHandler.send_header k v h).
Proof.
intros Hk [Hw [fields [[message Hb] Hf]]]. split; [exact Hw|].
exists (fields ++ [(k, v)])%list. split.
- exists message. cbn. rewrite Hb, map_app. reflexivity.
- apply Forall_app. split; [exact Hf|]. repeat constructor. exact Hk.
Qed.

Lemma end_headers_sent code h :
buffered code h -> cors_response code [] (wfile (end_headers h)).
Proof.
intros [Hw [fields Hh]]. rewrite end_headers_writes. cbn. rewrite Hw.
exists fields, (headers_buffer h). split; [exact Hh|reflexivity].
Qed.


Create HintDb handler.
#[local] Hint Resolve send_response_buffered send_header_buffered
end_headers_sent : handler.
#[local] Hint Extern 1 (is_cors_keyword _ = false) => reflexivity : handler.

(** ** Reading a response of that shape *)









(** ** Every method replies in that shape *)











(** ** GET on a file and on a missing path *)





End HandlerProperties.

(** * Properties of the process *)

Import Process.
Local Open Scope list_scope.

(** ** The serve loop in closed form *)

Lemma serve_fold env rs w :
  fold_left (fun w r => handle_request env r w) rs w
  = mkWorld (cwd w) (sock w) (trace w ++ map (served env (cwd w)) rs)
            (clock w) (pending w).
Proof.
  revert w. induction rs as [|r rs IH]; intro w.
  - cbn. rewrite app_nil_r. now destruct w.
  - cbn [fold_left map]. rewrite IH. cbn. now rewrite <- app_assoc.
Qed.

Lemma serve_forever_eq env w :
  serve_forever env w =
  match pending w with
  | Some k => if Nat.leb (clock w) k
              then (Raise KeyboardInterrupt, deliver (arrived env w))
              else (Blocked, arrived env w)
  | None => (Blocked, arrived env w)
  end.
Proof.
  unfold serve_forever. rewrite serve_fold. unfold arrived. cbn.
  rewrite <- app_assoc. reflexivity.
Qed.

Lemma not_in_served env root rs e :
  (forall d c p r, e <> Request d c p r) -> ~ In e (map (served env root) rs).
Proof.
  intros He Hin. apply in_map_iff in Hin. destruct Hin as [x [Hx _]].
  unfold served in Hx. symmetry in Hx. now apply He in Hx.
Qed.

(** ** Running [main] by cases

    A run is decided by the step at which Ctrl+C arrives (if it does),
    by which of the three assets exist, by whether the bind succeeds and
    by how the browser launch ends.  [run_cases] goes through all of
    them and leaves, in each, the run as an explicit outcome and world. *)

Ltac exec_in H :=
  cbv [run main initial bind os_chdir tick effect missing required_files
       os_path_exists ret print_all missing_report print sys_exit raise
       TCPServer with_ try_except webbrowser_open server_close
       banner farewell arrived
       sigint script_dir Process.fs bind_error browser requests start_dir
       Process.pf log set_cwd set_sock advance deliver
       cwd sock trace clock pending
       Nat.eqb Nat.leb is_Exception is_KeyboardInterrupt] in H.

Ltac unfold_spec :=
  cbv [absent checks bound_trace serving_trace succeeded banner farewell
       missing_report required_files exit_status stdout
       sigint script_dir Process.fs bind_error browser requests start_dir
       Process.pf cwd sock trace clock pending fst snd];
  cbn [app map filter negb flat_map firstn];
  rewrite <- ?app_assoc; cbn [app].

Ltac on_exists H :=
  repeat match type of H with
         | context [os_path.exists_ ?f ?p] =>
             let E := fresh "E" in destruct (os_path.exists_ f p) eqn:E
         end.

Ltac if_occurs x H tac :=
  match type of H with
  | context [x] => tac
  | _ => idtac
  end.

Ltac run_cases env :=
  let k := fresh "k" in
  let berr := fresh "berr" in
  let br := fresh "br" in
  let r := fresh "r" in
  let Hr := fresh "Hr" in
  remember (run env) as r eqn:Hr;
  destruct env as [? ? ? ? ? ? berr br [k|] ?];
  [ do 19 (try (destruct k as [|k])) | ];
  unfold_spec;
  exec_in Hr; on_exists Hr; exec_in Hr;
  if_occurs berr Hr ltac:(destruct berr; exec_in Hr);
  if_occurs br Hr ltac:(destruct br as [?|[]]; exec_in Hr);
  rewrite ?serve_forever_eq in Hr; exec_in Hr;
  cbn [app] in Hr; rewrite <- ?app_assoc in Hr; cbn [app] in Hr;
  subst r; unfold_spec.

(** The same for two runs that differ in one field of the environment. *)
Ltac run_cases_pair env H1 H2 :=
  let k := fresh "k" in
  let berr := fresh "berr" in
  let br := fresh "br" in
  destruct env as [? ? ? ? ? ? berr br [k|] ?];
  unfold with_browser, with_start_dir in *;
  [ do 19 (try (destruct k as [|k])) | ];
  exec_in H1; exec_in H2; on_exists H1; exec_in H1; exec_in H2;
  if_occurs berr H1 ltac:(destruct berr; exec_in H1; exec_in H2);
  if_occurs br H1 ltac:(destruct br as [?|[]]; exec_in H1; exec_in H2);
  rewrite ?serve_forever_eq in H1, H2; exec_in H1; exec_in H2.

(** Membership in an explicit trace. *)
Ltac in_here :=
  cbn [In];
  repeat first [ left; reflexivity | right | apply in_or_app; right; cbn [In] ].

Ltac split_in H :=
  cbn [In] in H; repeat (rewrite in_app_iff in H; cbn [In] in H).

Ltac absurd_in H :=
  exfalso; split_in H; intuition (try discriminate);
  match goal with
  | H' : In _ (map _ _) |- _ => now apply not_in_served in H'
  end.

(** ** Runs that no Ctrl+C touches: the gate *)

Lemma gate_outcome env :
  ~ In Interrupt (trace (snd (run env))) ->
  match absent env with
  | [] =>
      exists rest,
        trace (snd (run env))
        = Chdir (script_dir env)
          :: checks env ++ Bind HOST PORT (succeeded (bind_error env)) :: rest
  | _ :: _ =>
      trace (snd (run env))
      = Chdir (script_dir env)
        :: checks env ++ map Print (missing_report (absent env))
      /\ stdout (snd (run env)) = missing_report (absent env)
      /\ fst (run env) = Raise (SystemExit 1)
      /\ exit_status (fst (run env)) = Some 1%Z
      /\ sock (snd (run env)) = NoSocket
      /\ forall h p ok, ~ In (Bind h p ok) (trace (snd (run env)))
  end.
Proof.
  run_cases env; intro H; try (exfalso; apply H; in_here; fail).
  all: try (eexists; reflexivity).
  all: repeat split; try reflexivity.
  all: cbn [In]; intuition discriminate.
Qed.

(** ** Where the events of a run come from *)

Lemma trace_provenance env :
  (trace (snd (run env)) = [Interrupt]
   \/ exists rest, trace (snd (run env)) = Chdir (script_dir env) :: rest)
  /\ (forall p b, In (Exists p b) (trace (snd (run env))) ->
        exists f, In f required_files
                  /\ p = path_join (script_dir env) f
                  /\ b = os_path.exists_ (fs env) p)
  /\ (forall root c p r, In (Request root c p r) (trace (snd (run env))) ->
        root = script_dir env
        /\ r = CustomHTTPRequestHandler.respond (pf env) (fs env)
                 (script_dir env) c p).
Proof.
  run_cases env; (split; [|split]).
  all: try (left; reflexivity).
  all: try (right; eexists; reflexivity).
  all: try (intros p b H; split_in H; intuition (try discriminate);
            match goal with
            | E : Exists _ _ = Exists _ _ |- _ =>
                inversion E; subst;
                first
                  [ exists "index.html"%string; repeat split;
                    [in_here|congruence]
                  | exists "styles.css"%string; repeat split;
                    [in_here|congruence]
                  | exists "script.js"%string; repeat split;
                    [in_here|congruence] ]
            | H' : In _ (map _ _) |- _ =>
                exfalso; now apply not_in_served in H'
            end).
  all: intros root c p r H; split_in H; intuition (try discriminate);
    match goal with
    | H' : In _ (map _ _) |- _ =>
        apply in_map_iff in H'; destruct H' as [x [Hx _]];
        unfold served in Hx; inversion Hx; reflexivity
    end.
Qed.

Lemma start_dir_irrelevant env d :
  fst (run (with_start_dir d env)) = fst (run env)
  /\ trace (snd (run (with_start_dir d env))) = trace (snd (run env))
  /\ sock (snd (run (with_start_dir d env))) = sock (snd (run env)).
Proof.
  remember (run (with_start_dir d env)) as r1 eqn:H1.
  remember (run env) as r2 eqn:H2.
  run_cases_pair env H1 H2.
  all: subst r1 r2; repeat split; reflexivity.
Qed.

Lemma browser_failure_unobservable env e b :
  is_Exception e = true ->
  run (with_browser (Failed e) env) = run (with_browser (Opened b) env).
Proof.
  intro He. destruct e; try discriminate He.
  all: match goal with
       | |- run ?a = run ?b =>
           remember (run a) as r1 eqn:H1; remember (run b) as r2 eqn:H2
       end.
  all: run_cases_pair env H1 H2.
  all: subst r1 r2; reflexivity.
Qed.

Lemma arguments_irrelevant env av en :
  run (with_arguments av en env) = run env.
Proof. destruct env. reflexivity. Qed.

(** * The request handler: header injection, preflight, static files *)

Section HandlerClaims.

Import CustomHTTPRequestHandler Process Demo.
Local Open Scope list_scope.




(** The bytes of that reply on the demonstration platform. *)
Example options_preflight_bytes :
wire_bytes (respond demo_platform demo_fs "/srv/app" "OPTIONS" "/nope")
= String.concat CRLF
    ["HTTP/1.0 200 OK";
     "Server: SimpleHTTP/0.6 Python/3.11.2";
     "Date: Wed, 04 Nov 2026 12:00:00 GMT";
     "Access-Control-Allow-Origin: *";
     "Access-Control-Allow-Methods: GET, POST, OPTIONS";
     "Access-Control-Allow-Headers: Content-Type";
     ""; ""]%string.
Proof. vm_compute. reflexivity. Qed.



End HandlerClaims.

(** * The process: gate, bind, browser, serve loop, interrupts *)

Section ProcessClaims.

Import Process Demo.
Local Open Scope list_scope.

(** C3.  In a run that no Ctrl+C touches: when some required file is
  missing, the process changes directory, makes the three checks,
  prints the two-line report whose first line names exactly the missing
  files, and exits with status 1, without ever creating or binding a
  socket; when none is missing, the next thing it does after the checks
  is to bind. *)
Theorem startup_gate env :
~ In Interrupt (trace (snd (run env))) ->
match absent env with
| [] =>
    exists rest,
      trace (snd (run env))
      = Chdir (script_dir env)
        :: checks env ++ Bind HOST PORT (succeeded (bind_error env)) :: rest
| _ :: _ =>
    trace (snd (run env))
    = Chdir (script_dir env)
      :: checks env ++ map Print (missing_report (absent env))
    /\ stdout (snd (run env)) = missing_report (absent env)
    /\ fst (run env) = Raise (SystemExit 1)
    /\ exit_status (fst (run env)) = Some 1%Z
    /\ sock (snd (run env)) = NoSocket
    /\ forall h p ok, ~ In (Bind h p ok) (trace (snd (run env)))
end.
Proof. exact (gate_outcome env). Qed.

Lemma startup_gate_witness :
~ In Interrupt (trace (snd (run gate_demo)))
/\ stdout (snd (run gate_demo))
   = ["❌ Missing required files: styles.css, script.js";
      "Please ensure all frontend files are in the same directory as this server script."]%string
/\ exit_status (fst (run gate_demo)) = Some 1%Z
/\ forall h p ok, ~ In (Bind h p ok) (trace (snd (run gate_demo))).
Proof.
assert (H : ~ In Interrupt (trace (snd (run gate_demo)))).
{ vm_compute. intuition discriminate. }
split; [exact H|].
assert (G := startup_gate gate_demo H).
change (absent gate_demo) with ["styles.css"; "script.js"]%string in G.
cbv beta iota in G.
destruct G as [_ [Hs [_ [He [_ Hb]]]]].
split; [exact Hs|]. split; [exact He|exact Hb].
Defined.



(** C6.  Once the socket is bound and the banner is printed, the server
  tries to open the browser at [http://localhost:8000].  A launch that
  fails with any exception derived from [Exception] leaves no mark: the
  run is the same, event for event, as the run in which the launch
  succeeds; in particular the server goes on to its serve loop and stays
  in it. *)
Theorem browser_launch_is_best_effort env :
(forall e b, is_Exception e = true ->
             run (with_browser (Failed e) env)
             = run (with_browser (Opened b) env))
/\ (In (Bind HOST PORT true) (trace (snd (run env))) ->
    ~ In Interrupt (trace (snd (run env))) ->
    (forall e, browser env = Failed e -> is_Exception e = true) ->
    trace (snd (run env)) = serving_trace env
    /\ In (BrowserOpen "http://localhost:8000") (trace (snd (run env)))
    /\ fst (run env) = Blocked
    /\ sock (snd (run env)) = Listening HOST PORT).
Proof.
split; [intros e b; apply browser_failure_unobservable|].
run_cases env; intros Hb Hi He.
all: try (absurd_in Hb; fail).
all: try (exfalso; apply Hi; in_here; fail).
all: try (specialize (He _ eq_refl); discriminate He).
all: repeat split; try reflexivity; in_here.
Qed.

Lemma browser_launch_is_best_effort_witness :
run (serving_demo None) = run (demo_env demo_fs (Opened true) None)
/\ fst (run (serving_demo None)) = Blocked
/\ In (BrowserOpen "http://localhost:8000")
      (trace (snd (run (serving_demo None)))).
Proof.
destruct (browser_launch_is_best_effort (serving_demo None)) as [Hsame Hon].
split; [exact (Hsame (Error "webbrowser.Error") true eq_refl)|].
assert (Hb : In (Bind HOST PORT true) (trace (snd (run (serving_demo None))))).
{ vm_compute. repeat first [left; reflexivity | right]. }
assert (Hi : ~ In Interrupt (trace (snd (run (serving_demo None))))).
{ vm_compute. intuition discriminate. }
assert (He : forall e, browser (serving_demo None) = Failed e ->
                       is_Exception e = true).
{ intros e H. inversion H. reflexivity. }
destruct (Hon Hb Hi He) as [_ [Ho [Hf _]]].
split; [exact Hf|exact Ho].
Defined.

(** C7.  The first thing [main] does is to change to the directory of the
  script; the three existence checks are made on paths in that
  directory and every request is served by a handler rooted there.
  Neither the outcome of the run nor anything it does depends on the
  directory the process was started in. *)
Theorem serves_from_script_directory env :
(forall d,
    fst (run (with_start_dir d env)) = fst (run env)
    /\ trace (snd (run (with_start_dir d env))) = trace (snd (run env))
    /\ sock (snd (run (with_start_dir d env))) = sock (snd (run env)))
/\ (trace (snd (run env)) = [Interrupt]
    \/ exists rest, trace (snd (run env)) = Chdir (script_dir env) :: rest)
/\ (forall p b, In (Exists p b) (trace (snd (run env))) ->
       exists f, In f required_files
                 /\ p = path_join (script_dir env) f
                 /\ b = os_path.exists_ (fs env) p)
/\ (forall root c p r, In (Request root c p r) (trace (snd (run env))) ->
       root = script_dir env
       /\ r = CustomHTTPRequestHandler.respond (pf env) (fs env)
                (script_dir env) c p).
Proof.
split; [intro d; apply start_dir_irrelevant|].
exact (trace_provenance env).
Qed.

Lemma serves_from_script_directory_witness :
In (Exists "/srv/app/styles.css" true)
   (trace (snd (run (serving_demo None))))
/\ exists f, In f required_files
             /\ "/srv/app/styles.css"%string
                = path_join (script_dir (serving_demo None)) f.
Proof.
assert (H : In (Exists "/srv/app/styles.css" true)
               (trace (snd (run (serving_demo None))))).
{ vm_compute. repeat first [left; reflexivity | right]. }
split; [exact H|].
destruct (serves_from_script_directory (serving_demo None))
  as [_ [_ [Hex _]]].
destruct (Hex _ _ H) as [f [Hf [Hp _]]].
exists f. split; [exact Hf|exact Hp].
Defined.

(** C8.  Whatever the command line, the process environment, the file
  system and everything else a run depends on: every bind is to
  [localhost], port 8000, and a listening socket listens there.  The
  command line and the environment variables are not looked at. *)
Theorem bind_address_is_fixed env :
(forall h p ok, In (Bind h p ok) (trace (snd (run env))) ->
                h = "localhost"%string /\ p = 8000%Z)
/\ (forall h p, sock (snd (run env)) = Listening h p ->
                h = "localhost"%string /\ p = 8000%Z)
/\ (forall av en, run (with_arguments av en env) = run env).
Proof.
assert (Haddr :
          (forall h p ok, In (Bind h p ok) (trace (snd (run env))) ->
                          h = "localhost"%string /\ p = 8000%Z)
          /\ (forall h p, sock (snd (run env)) = Listening h p ->
                          h = "localhost"%string /\ p = 8000%Z)).
{ run_cases env; (split; [intros h p ok H | intros h p H]).
  all: try discriminate.
  all: try (inversion H; split; reflexivity).
  all: split_in H; intuition (try discriminate);
    match goal with
    | E : Bind _ _ _ = Bind _ _ _ |- _ => inversion E; reflexivity
    | H' : In _ (map _ _) |- _ => exfalso; now apply not_in_served in H'
    end. }
destruct Haddr as [Hb Hs].
split; [exact Hb|]. split; [exact Hs|].
intros av en. apply arguments_irrelevant.
Qed.

Lemma bind_address_is_fixed_witness :
sock (snd (run (serving_demo None))) = Listening "localhost" 8000
/\ run (with_arguments ["server.py"; "--port"; "9000"]%string
          [("HOST", "0.0.0.0")]%string (serving_demo None))
   = run (serving_demo None).
Proof.
destruct (bind_address_is_fixed (serving_demo None)) as [_ [Hs Ha]].
split; [|exact (Ha _ _)].
assert (H : sock (snd (run (serving_demo None))) = Listening HOST PORT)
  by (vm_compute; reflexivity).
destruct (Hs _ _ H) as [Hh Hp]. exact H.
Defined.

(** C9.  The gate asks only whether [os.stat] finds something at each of
  the three paths.  If it does (a file, readable or not, a directory,
  or any other kind of entry), no file counts as missing, the three
  checks answer yes, and a run that no Ctrl+C touches goes on to
  bind. *)
Theorem gate_tests_existence_only env :
(forall f, In f required_files ->
           exists e : entry, fs env (path_join (script_dir env) f) = Some e) ->
absent env = []
/\ checks env
   = map (fun f => Exists (path_join (script_dir env) f) true) required_files
/\ (~ In Interrupt (trace (snd (run env))) ->
    exists rest,
      trace (snd (run env))
      = Chdir (script_dir env)
        :: checks env ++ Bind HOST PORT (succeeded (bind_error env)) :: rest).
Proof.
intro H.
assert (E : forall f, In f required_files ->
              os_path.exists_ (fs env) (path_join (script_dir env) f) = true).
{ intros f Hf. destruct (H f Hf) as [e He].
  unfold os_path.exists_. now rewrite He. }
assert (Ha : absent env = []).
{ unfold absent, required_files. cbn [filter].
  rewrite !E by in_here. reflexivity. }
split; [exact Ha|]. split.
- unfold checks, required_files. cbn [map].
  rewrite !E by in_here. reflexivity.
- intro Hi. generalize (gate_outcome env Hi). now rewrite Ha.
Qed.

Lemma gate_tests_existence_only_witness :
(forall f, In f required_files ->
           exists e : entry,
             fs (serving_demo None)
                (path_join (script_dir (serving_demo None)) f) = Some e)
/\ demo_fs "/srv/app/styles.css" = Some (Dir None)
/\ absent (serving_demo None) = [].
Proof.
assert (H : forall f, In f required_files ->
              exists e : entry,
                fs (serving_demo None)
                   (path_join (script_dir (serving_demo None)) f) = Some e).
{ intros f [<-|[<-|[<-|[]]]]; eexists; vm_compute; reflexivity. }
split; [exact H|]. split; [reflexivity|].
exact (proj1 (gate_tests_existence_only (serving_demo None) H)).
Defined.

(** C10.  A Ctrl+C that arrives after the socket is bound and before the
  serve loop is entered (while the banner is printed, or during the
  browser launch, whose guard catches [Exception] only) is caught
  nowhere: [main] ends with [KeyboardInterrupt], the exit status is not
  0, no acknowledgment is printed, and the only thing that still happens
  is the closing of the listening socket. *)
Theorem interrupt_before_serve_loop env :
In (Bind HOST PORT true) (trace (snd (run env))) ->
In Interrupt (trace (snd (run env))) ->
~ In ServeForever (trace (snd (run env))) ->
fst (run env) = Raise KeyboardInterrupt
/\ exit_status (fst (run env)) = Some 130%Z
/\ exit_status (fst (run env)) <> Some 0%Z
/\ sock (snd (run env)) = Closed
/\ exists n,
    n <= 12
    /\ trace (snd (run env))
       = bound_trace env ++ map Print (firstn n (banner env))
         ++ [Interrupt; ServerClose].
Proof.
run_cases env; intros Hb Hi Hs.
all: try (absurd_in Hb; fail).
all: try (absurd_in Hi; fail).
all: try (exfalso; apply Hs; in_here; fail).
all: repeat split; try reflexivity; try discriminate.
all: first [ exists 0; split; [lia|reflexivity]
           | exists 1; split; [lia|reflexivity]
           | exists 2; split; [lia|reflexivity]
           | exists 3; split; [lia|reflexivity]
           | exists 4; split; [lia|reflexivity]
           | exists 5; split; [lia|reflexivity]
           | exists 6; split; [lia|reflexivity]
           | exists 7; split; [lia|reflexivity]
           | exists 8; split; [lia|reflexivity]
           | exists 9; split; [lia|reflexivity]
           | exists 10; split; [lia|reflexivity]
           | exists 11; split; [lia|reflexivity]
           | exists 12; split; [lia|reflexivity] ].
Qed.

Lemma interrupt_before_serve_loop_witness :
(In (Bind HOST PORT true) (trace (snd (run (serving_demo (Some 17)))))
 /\ In Interrupt (trace (snd (run (serving_demo (Some 17)))))
 /\ ~ In ServeForever (trace (snd (run (serving_demo (Some 17))))))
/\ fst (run (serving_demo (Some 17))) = Raise KeyboardInterrupt
/\ sock (snd (run (serving_demo (Some 17)))) = Closed.
Proof.
assert (Hb : In (Bind HOST PORT true)
                (trace (snd (run (serving_demo (Some 17)))))).
{ vm_compute. repeat first [left; reflexivity | right]. }
assert (Hi : In Interrupt (trace (snd (run (serving_demo (Some 17)))))).
{ vm_compute. repeat first [left; reflexivity | right]. }
assert (Hs : ~ In ServeForever (trace (snd (run (serving_demo (Some 17)))))).
{ vm_compute. intuition discriminate. }
split; [split; [exact Hb|split; [exact Hi|exact Hs]]|].
destruct (interrupt_before_serve_loop (serving_demo (Some 17)) Hb Hi Hs)
  as [Hr [_ [_ [Hc _]]]].
split; [exact Hr|exact Hc].
Defined.

End ProcessClaims.

(** * Further properties of the request handler *)

Section HandlerExtras.

Import CustomHTTPRequestHandler Demo.
Local Open Scope string_scope.













End HandlerExtras.

(** * Further properties of the process *)

Section ProcessExtras.

Import Process Demo.
Local Open Scope list_scope.


Ltac last_here :=
  unfold last_event;
  repeat (cbn [rev app hd_error] || rewrite rev_app_distr
          || rewrite <- app_assoc);
  reflexivity.


Ltac found := vm_compute; repeat first [left; reflexivity | right].

(** X5.  A bind that fails is fatal and silent: the [OSError] of the
    server's constructor leaves [main] unhandled, the exit status is 1,
    nothing has been printed, no browser is opened and no socket is left
    behind. *)
Theorem bind_failure_is_fatal env :
  In (Bind HOST PORT false) (trace (snd (run env))) ->
  exists msg,
    bind_error env = Some msg
    /\ fst (run env) = Raise (OSError msg)
    /\ exit_status (fst (run env)) = Some 1%Z
    /\ sock (snd (run env)) = NoSocket
    /\ stdout (snd (run env)) = []
    /\ trace (snd (run env))
       = Chdir (script_dir env) :: checks env ++ [Bind HOST PORT false].
Proof.
  run_cases env; intro H.
  all: try (absurd_in H; fail).
  all: eexists; repeat split; reflexivity.
Qed.

Lemma bind_failure_is_fatal_witness :
  In (Bind HOST PORT false) (trace (snd (run busy_demo)))
  /\ fst (run busy_demo) = Raise (OSError "[Errno 98] Address already in use")
  /\ stdout (snd (run busy_demo)) = [].
Proof.
  assert (H : In (Bind HOST PORT false) (trace (snd (run busy_demo))))
    by found.
  split; [exact H|].
  destruct (bind_failure_is_fatal busy_demo H)
    as [msg [Hm [Hr [_ [_ [Hs _]]]]]].
  split; [|exact Hs].
  rewrite Hr. inversion Hm. reflexivity.
Defined.

(** X6.  The listening socket never outlives the process: a run ends
    with a listening socket only if it has not ended at all (it is still
    serving), and every run that bound the socket and came to an end
    closed it, as the last thing it did. *)
Theorem terminated_runs_hold_no_socket env :
  (fst (run env) = Blocked ->
   sock (snd (run env)) = Listening HOST PORT
   /\ trace (snd (run env)) = serving_trace env)
  /\ (forall h p, sock (snd (run env)) = Listening h p ->
                  fst (run env) = Blocked)
  /\ (In (Bind HOST PORT true) (trace (snd (run env))) ->
      fst (run env) <> Blocked ->
      sock (snd (run env)) = Closed
      /\ last_event (trace (snd (run env))) = Some ServerClose).
Proof.
  run_cases env; (split; [|split]).
  all: try (intro H; discriminate H).
  all: try (intros h p H; discriminate H).
  all: try (intros h p H; reflexivity).
  all: try (intro H; split; reflexivity).
  all: intros Hb Hn; try (absurd_in Hb; fail);
    try (exfalso; apply Hn; reflexivity).
  all: split; [reflexivity|last_here].
Qed.

Lemma terminated_runs_hold_no_socket_witness :
  (In (Bind HOST PORT true) (trace (snd (run (serving_demo (Some 9)))))
   /\ fst (run (serving_demo (Some 9))) <> Blocked)
  /\ sock (snd (run (serving_demo (Some 9)))) = Closed
  /\ last_event (trace (snd (run (serving_demo (Some 9))))) = Some ServerClose.
Proof.
  assert (Hb : In (Bind HOST PORT true)
                  (trace (snd (run (serving_demo (Some 9)))))) by found.
  assert (Hn : fst (run (serving_demo (Some 9))) <> Blocked)
    by (vm_compute; discriminate).
  split; [split; [exact Hb|exact Hn]|].
  exact (proj2 (proj2 (terminated_runs_hold_no_socket
                         (serving_demo (Some 9)))) Hb Hn).
Defined.

(** X7.  [main] returns normally in one way only: the serve loop was
    entered and Ctrl+C arrived.  The acknowledgment lines are printed in
    no other run. *)
Theorem returns_only_after_interrupt_in_loop env :
  (fst (run env) = Return tt <->
   In ServeForever (trace (snd (run env)))
   /\ In Interrupt (trace (snd (run env))))
  /\ (forall t, In t farewell ->
        In (Print t) (trace (snd (run env))) ->
        fst (run env) = Return tt).
Proof.
  run_cases env; (split; [split|]).
  all: try (intro H; discriminate H).
  all: try (intros [Hs Hi]; first [absurd_in Hs | absurd_in Hi]; fail).
  all: try (intros _; split; in_here; fail).
  all: try (intros _; reflexivity).
  all: intros t Ht Hp; try reflexivity;
    cbn [In] in Ht; destruct Ht as [<-|[<-|[]]]; absurd_in Hp.
Qed.

Lemma returns_only_after_interrupt_in_loop_witness :
  fst (run (serving_demo (Some 25))) = Return tt
  /\ In ServeForever (trace (snd (run (serving_demo (Some 25)))))
  /\ In Interrupt (trace (snd (run (serving_demo (Some 25))))).
Proof.
  assert (H : fst (run (serving_demo (Some 25))) = Return tt)
    by (vm_compute; reflexivity).
  split; [exact H|].
  exact (proj1 (proj1 (returns_only_after_interrupt_in_loop
                         (serving_demo (Some 25)))) H).
Defined.

(** X8.  A Ctrl+C that arrives before the socket is bound (during the
    change of directory, the checks, the report or the bind) ends the
    process on the spot: [KeyboardInterrupt] is not handled, no socket
    exists, and nothing happens after the interrupt. *)
Theorem interrupt_before_bind env :
  In Interrupt (trace (snd (run env))) ->
  (forall h p ok, ~ In (Bind h p ok) (trace (snd (run env)))) ->
  fst (run env) = Raise KeyboardInterrupt
  /\ exit_status (fst (run env)) = Some 130%Z
  /\ sock (snd (run env)) = NoSocket
  /\ last_event (trace (snd (run env))) = Some Interrupt.
Proof.
  run_cases env; intros Hi Hb.
  all: try (absurd_in Hi; fail).
  all: try (exfalso; apply (Hb HOST PORT true); in_here; fail).
  all: try (exfalso; apply (Hb HOST PORT false); in_here; fail).
  all: repeat split; try reflexivity; last_here.
Qed.

Lemma interrupt_before_bind_witness :
  (In Interrupt (trace (snd (run (serving_demo (Some 2)))))
   /\ forall h p ok,
       ~ In (Bind h p ok) (trace (snd (run (serving_demo (Some 2))))))
  /\ fst (run (serving_demo (Some 2))) = Raise KeyboardInterrupt
  /\ sock (snd (run (serving_demo (Some 2)))) = NoSocket.
Proof.
  assert (Hi : In Interrupt (trace (snd (run (serving_demo (Some 2))))))
    by found.
  assert (Hb : forall h p ok,
             ~ In (Bind h p ok) (trace (snd (run (serving_demo (Some 2)))))).
  { intros h p ok. vm_compute. intuition discriminate. }
  split; [split; [exact Hi|exact Hb]|].
  destruct (interrupt_before_bind (serving_demo (Some 2)) Hi Hb)
    as [Hr [_ [Hs _]]].
  split; [exact Hr|exact Hs].
Defined.



(** X10.  The browser is opened only once the socket is bound and the
    whole banner is out, and at the address the banner announces. *)
Theorem browser_opens_after_banner env u :
  In (BrowserOpen u) (trace (snd (run env))) ->
  u = "http://localhost:8000"%string
  /\ In ("🌐 Server running at: " ++ u)%string (banner env)
  /\ exists rest,
      trace (snd (run env))
      = bound_trace env ++ map Print (banner env) ++ BrowserOpen u :: rest.
Proof.
  run_cases env; intro H.
  all: try (absurd_in H; fail).
  all: split_in H; intuition (try discriminate);
    try match goal with
        | H' : In _ (map _ _) |- _ => exfalso; now apply not_in_served in H'
        end;
    match goal with
    | E : BrowserOpen _ = BrowserOpen _ |- _ => inversion E; subst
    end;
    try reflexivity; try (in_here; fail); eexists; reflexivity.
Qed.

Lemma browser_opens_after_banner_witness :
  In (BrowserOpen "http://localhost:8000")
     (trace (snd (run (serving_demo None))))
  /\ In "🌐 Server running at: http://localhost:8000"%string
        (banner (serving_demo None)).
Proof.
  assert (H : In (BrowserOpen "http://localhost:8000")
                 (trace (snd (run (serving_demo None))))) by found.
  split; [exact H|].
  exact (proj1 (proj2 (browser_opens_after_banner (serving_demo None) _ H))).
Defined.

(** X11.  With a required file missing the server never comes up,
    whether or not the run is interrupted: no bind is attempted, no
    socket exists, no request is answered, and the run ends with
    [SystemExit(1)] or, if Ctrl+C came first, with
    [KeyboardInterrupt]. *)
Theorem missing_file_never_binds env :
  absent env <> [] ->
  (forall h p ok, ~ In (Bind h p ok) (trace (snd (run env))))
  /\ sock (snd (run env)) = NoSocket
  /\ request_events (trace (snd (run env))) = []
  /\ (fst (run env) = Raise (SystemExit 1)
      \/ fst (run env) = Raise KeyboardInterrupt).
Proof.
  run_cases env;
    repeat match goal with
           | |- context [os_path.exists_ ?f ?p] =>
               destruct (os_path.exists_ f p)
           end;
    cbn [negb]; intro Ha; try (exfalso; apply Ha; reflexivity).
  all: repeat split; try reflexivity; try (left; reflexivity);
    try (right; reflexivity).
  all: intros h p ok H; cbn [In] in H; intuition discriminate.
Qed.

Lemma missing_file_never_binds_witness :
  absent (demo_env bare_fs (Opened true) (Some 2)) <> []
  /\ sock (snd (run (demo_env bare_fs (Opened true) (Some 2)))) = NoSocket
  /\ fst (run (demo_env bare_fs (Opened true) (Some 2)))
     = Raise KeyboardInterrupt.
Proof.
  assert (H : absent (demo_env bare_fs (Opened true) (Some 2)) <> [])
    by (vm_compute; discriminate).
  split; [exact H|].
  destruct (missing_file_never_binds _ H) as [_ [Hs _]].
  split; [exact Hs|reflexivity].
Defined.

(** X12.  The guard around the browser launch lets through what does not
    derive from [Exception]: a launch that ends in [SystemExit] or
    [KeyboardInterrupt] ends [main] with it, the serve loop is never
    entered, and the socket is closed on the way out. *)
Theorem browser_base_exception_propagates env e :
  browser env = Failed e ->
  is_Exception e = false ->
  In (BrowserOpen root_url) (trace (snd (run env))) ->
  fst (run env) = Raise e
  /\ sock (snd (run env)) = Closed
  /\ trace (snd (run env))
     = bound_trace env ++ map Print (banner env)
       ++ [BrowserOpen root_url; ServerClose].
Proof.
  revert e. run_cases env; intros e Hbr He Ho.
  all: try (absurd_in Ho; fail).
  all: try discriminate Hbr.
  all: inversion Hbr; subst e; try discriminate He.
  all: repeat split; reflexivity.
Qed.

Lemma browser_base_exception_propagates_witness :
  In (BrowserOpen root_url)
     (trace (snd (run (demo_env demo_fs (Failed (SystemExit 3)) None))))
  /\ fst (run (demo_env demo_fs (Failed (SystemExit 3)) None))
     = Raise (SystemExit 3)
  /\ sock (snd (run (demo_env demo_fs (Failed (SystemExit 3)) None)))
     = Closed.
Proof.
  assert (H : In (BrowserOpen root_url)
                 (trace (snd (run (demo_env demo_fs
                                     (Failed (SystemExit 3)) None)))))
    by found.
  split; [exact H|].
  destruct (browser_base_exception_propagates
              (demo_env demo_fs (Failed (SystemExit 3)) None)
              (SystemExit 3) eq_refl eq_refl H) as [Hr [Hs _]].
  split; [exact Hr|exact Hs].
Defined.

End ProcessExtras.
